(** * WA_API: the WhatsApp webhook relay

    A shallow embedding of the two server files of the repository,
    [webhook_server.js] and the second server file (the one that also
    serves the root path), followed by the properties of their
    verification handler, ingress handler, orchestrator and formatter.

    JavaScript strings are sequences of UTF-16 code units, JSON data is
    an inductive type of values, and the asynchronous handlers are
    written in a small monad that records, in order, the HTTP response
    and every outbound HTTP request a handler makes. *)

From Stdlib Require Import List NArith ZArith String Ascii Bool Lia.
Import ListNotations.

Set Implicit Arguments.

(* ===================================================================== *)
(** ** JavaScript strings and values *)
(* ===================================================================== *)

Module Js.

(** A string is its sequence of UTF-16 code units. *)
Definition js_string : Type := list N.

(** Literals are written as they stand in the source files (UTF-8) and
    decoded to code units. *)
Fixpoint utf8_decode (bs : list N) : list N :=
  match bs with
  | [] => []
  | b0 :: r0 =>
    if (b0 <? 0x80)%N then b0 :: utf8_decode r0
    else match r0 with
    | [] => []
    | b1 :: r1 =>
      if (b0 <? 0xE0)%N
      then ((b0 mod 32) * 64 + b1 mod 64)%N :: utf8_decode r1
      else match r1 with
      | [] => []
      | b2 :: r2 =>
        if (b0 <? 0xF0)%N
        then (((b0 mod 16) * 64 + b1 mod 64) * 64 + b2 mod 64)%N
               :: utf8_decode r2
        else match r2 with
        | [] => []
        | b3 :: r3 =>
          ((((b0 mod 8) * 64 + b1 mod 64) * 64 + b2 mod 64) * 64
             + b3 mod 64)%N :: utf8_decode r3
        end
      end
    end
  end.

Definition utf16_units (cp : N) : list N :=
  if (cp <? 0x10000)%N then [cp]
  else [(0xD800 + (cp - 0x10000) / 0x400)%N;
        (0xDC00 + (cp - 0x10000) mod 0x400)%N].

Definition js (s : string) : js_string :=
  flat_map utf16_units
    (utf8_decode (map N_of_ascii (list_ascii_of_string s))).

Fixpoint str_eqb (a b : js_string) : bool :=
  match a, b with
  | [], [] => true
  | x :: a', y :: b' => (x =? y)%N && str_eqb a' b'
  | _, _ => false
  end.

(** [lines] joins the lines of a multi-line template literal with the
    line feed the literal contains between them. *)
Fixpoint lines (ls : list js_string) : js_string :=
  match ls with
  | [] => []
  | [l] => l
  | l :: rest => l ++ 10%N :: lines rest
  end.

(** *** [String.prototype.trim]: white space and line terminators *)

Definition is_white_space (c : N) : bool :=
  existsb (N.eqb c)
    [0x9; 0xA; 0xB; 0xC; 0xD; 0x20; 0xA0; 0x1680; 0x2028; 0x2029;
     0x202F; 0x205F; 0x3000; 0xFEFF]%N
  || ((0x2000 <=? c)%N && (c <=? 0x200A)%N).

Fixpoint trimStart (s : js_string) : js_string :=
  match s with
  | [] => []
  | c :: r => if is_white_space c then trimStart r else s
  end.

Definition trimEnd (s : js_string) : js_string := rev (trimStart (rev s)).

Definition trim (s : js_string) : js_string := trimEnd (trimStart s).

(** *** The regular expression [/^\d{8}$/] *)

Definition is_digit (c : N) : bool := (48 <=? c)%N && (c <=? 57)%N.

Definition regex_8_digits_test (s : js_string) : bool :=
  Nat.eqb (List.length s) 8 && forallb is_digit s.

(** *** Values

    The values that reach the handlers come out of [JSON.parse] (request
    bodies, axios response data) or out of the query-string parser; in
    addition [undefined] is the result of reading an absent property.

    A number is observed by this program only through [ToBoolean] and
    [ToString], so a number carries exactly these two observations. *)

Record JsNumber : Type := {
  num_is_zero_or_nan : bool;
  num_text : js_string
}.

#[local] Set Warnings "-register-all".

Inductive JsValue : Type :=
| JUndefined
| JNull
| JBool (b : bool)
| JNum (n : JsNumber)
| JStr (s : js_string)
| JArr (elements : list JsValue)
| JObj (properties : list (js_string * JsValue)).

Inductive Error : Type :=
| TypeError     (* raised by the language *)
| AxiosError.   (* a rejected axios call *)

Inductive Outcome (A : Type) : Type :=
| Ok (a : A)
| Throw (e : Error).

Arguments Ok {A} a.
Arguments Throw {A} e.

(** [ToBoolean], as used by [!], [||], [&&] and [if]. *)
Definition truthy (v : JsValue) : bool :=
  match v with
  | JUndefined | JNull => false
  | JBool b => b
  | JNum n => negb (num_is_zero_or_nan n)
  | JStr s => match s with [] => false | _ => true end
  | JArr _ | JObj _ => true
  end.

(** [a || b] *)
Definition or_else (a b : JsValue) : JsValue := if truthy a then a else b.

(** Own property of an object. *)
Fixpoint own_property (key : js_string) (props : list (js_string * JsValue))
  : option JsValue :=
  match props with
  | [] => None
  | (k, v) :: rest => if str_eqb k key then Some v else own_property key rest
  end.

(** [v.key] for the literal keys the handlers read ([entry], [changes],
    [value], [messages], [from], [id], [type], [text], [body],
    [ui_output_8], [overall_response]).  None of them is defined by a
    built-in prototype, so the read yields the own property of an object
    and [undefined] on every other value, except that reading a property
    of [undefined] or [null] throws. *)
Definition get (v : JsValue) (key : js_string) : Outcome JsValue :=
  match v with
  | JUndefined | JNull => Throw TypeError
  | JObj props =>
      match own_property key props with
      | Some x => Ok x
      | None => Ok JUndefined
      end
  | _ => Ok JUndefined
  end.

(** [v?.key] *)
Definition get_optional (v : JsValue) (key : js_string) : Outcome JsValue :=
  match v with
  | JUndefined | JNull => Ok JUndefined
  | _ => get v key
  end.

(** [a === 'literal'] *)
Definition strict_equals_string (v : JsValue) (s : js_string) : bool :=
  match v with
  | JStr t => str_eqb t s
  | _ => false
  end.

Fixpoint join (sep : js_string) (parts : list js_string) : js_string :=
  match parts with
  | [] => []
  | [p] => p
  | p :: rest => p ++ sep ++ join sep rest
  end.

(** [ToString], as applied by template literals and property keys.  An
    array joins its elements with commas, [null] and [undefined]
    elements giving the empty string.  A parsed object inherits
    [Object.prototype.toString] and renders as [[object Object]], unless
    it has an own property named [toString]: that property is data, not
    a function, no primitive can be obtained and a [TypeError] is
    thrown. *)
Fixpoint ToString (v : JsValue) : Outcome js_string :=
  match v with
  | JUndefined => Ok (js "undefined")
  | JNull => Ok (js "null")
  | JBool true => Ok (js "true")
  | JBool false => Ok (js "false")
  | JNum n => Ok (num_text n)
  | JStr s => Ok s
  | JArr elements =>
      let fix each (l : list JsValue) : Outcome (list js_string) :=
        match l with
        | [] => Ok []
        | x :: rest =>
            match (match x with
                   | JUndefined | JNull => Ok []
                   | _ => ToString x
                   end) with
            | Throw e => Throw e
            | Ok sx =>
                match each rest with
                | Throw e => Throw e
                | Ok srest => Ok (sx :: srest)
                end
            end
        end in
      match each elements with
      | Throw e => Throw e
      | Ok parts => Ok (join (js ",") parts)
      end
  | JObj props =>
      match own_property (js "toString") props with
      | Some _ => Throw TypeError
      | None => Ok (js "[object Object]")
      end
  end.

(** Iterating a string yields its code points, each as a string. *)
Definition is_high_surrogate (c : N) : bool := (0xD800 <=? c)%N && (c <=? 0xDBFF)%N.
Definition is_low_surrogate (c : N) : bool := (0xDC00 <=? c)%N && (c <=? 0xDFFF)%N.

Fixpoint code_points (s : js_string) : list js_string :=
  match s with
  | [] => []
  | c :: r =>
      match r with
      | d :: r' =>
          if is_high_surrogate c && is_low_surrogate d
          then [c; d] :: code_points r'
          else [c] :: code_points r
      | [] => [[c]]
      end
  end.

(** The sequence a [for ... of] loop runs over: arrays and strings are
    iterable, any other value throws. *)
Definition iterate (v : JsValue) : Outcome (list JsValue) :=
  match v with
  | JArr elements => Ok elements
  | JStr s => Ok (map JStr (code_points s))
  | _ => Throw TypeError
  end.

End Js.

(* ===================================================================== *)
(** ** Handlers as computations over a trace of observable events *)
(* ===================================================================== *)

Module Runtime.
Import Js.

(** What a handler does that the outside can see, in the order in which
    it happens.  Console output is not recorded. *)
Inductive Event : Type :=
| Respond (status : Z) (body : JsValue)
    (* res.status(status).send(body) or res.status(status).json(body) *)
| ProcessingRequest (approval_number : js_string)
    (* axios.post(PROCESSING_API_URL, { approval_number }, 60 s) *)
| DeliveryRequest (phone_number : JsValue) (message : js_string).
    (* axios.post(CLOUD_FUNCTION_URL, { phone_number, message }, 30 s) *)

(** What an axios call settles to: axios resolves on a 2xx status and
    rejects on any other status, on a network error and on timeout. *)
Record AxiosResponse : Type := {
  status : Z;
  data : JsValue
}.

Inductive AxiosResult : Type :=
| Resolved (response : AxiosResponse)
| Rejected.

(** The two remote endpoints.  Each answers a request as a function of
    everything that has happened before the request and of the request
    itself; nothing else is assumed about them. *)
Record World : Type := {
  processing_endpoint : list Event -> js_string -> AxiosResult;
  delivery_endpoint : list Event -> JsValue -> js_string -> AxiosResult
}.

(** A computation is run after a history of events and yields a result,
    or a thrown error, together with the events it adds.  Every [await]
    is a sequencing point: the awaited computation runs to completion
    before the next statement.  A rejected promise is observed where it
    is awaited. *)
Definition M (A : Type) : Type := list Event -> Outcome A * list Event.

Definition ret {A} (a : A) : M A := fun _ => (Ok a, []).

Definition throw {A} (e : Error) : M A := fun _ => (Throw e, []).

Definition lift {A} (o : Outcome A) : M A := fun _ => (o, []).

Definition emit (e : Event) : M unit := fun _ => (Ok tt, [e]).

Definition bind {A B} (m : M A) (k : A -> M B) : M B := fun history =>
  match m history with
  | (Ok a, t) => let (r, t') := k a (history ++ t) in (r, t ++ t')
  | (Throw e, t) => (Throw e, t)
  end.

(** [try { m } catch (error) { handler }] *)
Definition try_catch {A} (m : M A) (handler : Error -> M A) : M A :=
  fun history =>
  match m history with
  | (Ok a, t) => (Ok a, t)
  | (Throw e, t) => let (r, t') := handler e (history ++ t) in (r, t ++ t')
  end.

Declare Scope js_scope.
Delimit Scope js_scope with js_m.
Notation "x <- m ;; k" := (bind m (fun x => k))
  (at level 100, m at next level, right associativity) : js_scope.
Notation "m ;; k" := (bind m (fun _ => k))
  (at level 100, right associativity) : js_scope.
Open Scope js_scope.

(** [for (const x of l) body], with [await] inside the body: iteration
    [n+1] starts when iteration [n] has completed; a throw leaves the
    loop. *)
Fixpoint forEach {A} (l : list A) (body : A -> M unit) : M unit :=
  match l with
  | [] => ret tt
  | x :: rest => body x ;; forEach rest body
  end.

Definition for_of (v : JsValue) (body : JsValue -> M unit) : M unit :=
  l <- lift (iterate v) ;; forEach l body.

(** A [console.log] whose template literal interpolates the given
    values: each is converted with [ToString], which may throw; the
    output itself is not recorded. *)
Fixpoint console_log (interpolated : list JsValue) : M unit :=
  match interpolated with
  | [] => ret tt
  | v :: rest => _ <- lift (ToString v) ;; console_log rest
  end.

Section Axios.
Variable world : World.

(** [axios.post(PROCESSING_API_URL, ...)]: the request is issued when
    the call is made; the promise it returns is the settled result,
    observed when awaited. *)
Definition axios_post_processing (approval_number : js_string)
  : M AxiosResult :=
  fun history =>
    (Ok (processing_endpoint world history approval_number),
     [ProcessingRequest approval_number]).

Definition axios_post_delivery (phone_number : JsValue) (message : js_string)
  : M AxiosResult :=
  fun history =>
    (Ok (delivery_endpoint world history phone_number message),
     [DeliveryRequest phone_number message]).

End Axios.

(** [await promise]: the response of a resolved call, a throw for a
    rejected one. *)
Definition await (promise : AxiosResult) : M AxiosResponse :=
  match promise with
  | Resolved response => ret response
  | Rejected => throw AxiosError
  end.

(** [messageText.trim()]: only a string has a [trim] method; on any
    other value the call throws. *)
Definition call_trim (messageText : JsValue) : Outcome js_string :=
  match messageText with
  | JStr s => Ok (trim s)
  | _ => Throw TypeError
  end.

(** [a && a.key] *)
Definition and_get (a : JsValue) (key : js_string) : Outcome JsValue :=
  if truthy a then get a key else Ok a.

(** The delivery requests of a trace, in order. *)
Fixpoint deliveries (t : list Event) : list (JsValue * js_string) :=
  match t with
  | [] => []
  | DeliveryRequest p m :: rest => (p, m) :: deliveries rest
  | _ :: rest => deliveries rest
  end.

Fixpoint processing_requests (t : list Event) : list js_string :=
  match t with
  | [] => []
  | ProcessingRequest a :: rest => a :: processing_requests rest
  | _ :: rest => processing_requests rest
  end.

Fixpoint responses (t : list Event) : list (Z * JsValue) :=
  match t with
  | [] => []
  | Respond s b :: rest => (s, b) :: responses rest
  | _ :: rest => responses rest
  end.

End Runtime.

(* ===================================================================== *)
(** ** What the two server files have in common *)
(* ===================================================================== *)

Module Shared.
Import Js Runtime.

(** [process.env]: a variable is a string or is not set. *)
Record ProcessEnv : Type := {
  env_PORT : option js_string;
  env_VERIFY_TOKEN : option js_string;
  env_WHATSAPP_VERIFY_TOKEN : option js_string;
  env_PROCESSING_API_URL : option js_string
}.

(** [process.env.X || fallback] *)
Definition env_or (x : option js_string) (fallback : js_string) : js_string :=
  match x with
  | Some (c :: s) => c :: s
  | _ => fallback
  end.

Definition CLOUD_FUNCTION_URL : js_string :=
  js "https://whatsapp-proxy-66mhuvutfa-uc.a.run.app".

Inductive Method : Type := GET | POST.

Record Request : Type := {
  query : list (js_string * JsValue);
  body : JsValue
}.

Definition Handler : Type := Request -> M unit.

(** [req.query['name']] *)
Definition query_param (req : Request) (name : js_string) : JsValue :=
  match own_property name (query req) with
  | Some v => v
  | None => JUndefined
  end.

(** [app.get(path, handler)] and [app.post(path, handler)]: the first
    registered route with the method and path of the request handles it.
    [None] stands for a request no route of the file matches. *)
Definition method_eqb (a b : Method) : bool :=
  match a, b with
  | GET, GET | POST, POST => true
  | _, _ => false
  end.

Fixpoint route (routes : list (Method * js_string * Handler))
    (m : Method) (path : js_string) : option Handler :=
  match routes with
  | [] => None
  | (m', path', h) :: rest =>
      if method_eqb m' m && str_eqb path' path then Some h
      else route rest m path
  end.

(** [app.get('/health', ...)] *)
Definition health : Handler := fun _ =>
  emit (Respond 200
    (JObj [(js "status", JStr (js "healthy"));
           (js "service", JStr (js "whatsapp-webhook"));
           (js "cloud_function", JStr CLOUD_FUNCTION_URL)])).

(** *** Webhook verification *)

Definition handleVerification (VERIFY_TOKEN : js_string) : Handler := fun req =>
  let mode := query_param req (js "hub.mode") in
  let token := query_param req (js "hub.verify_token") in
  let challenge := query_param req (js "hub.challenge") in
  if strict_equals_string mode (js "subscribe")
     && strict_equals_string token VERIFY_TOKEN
  then emit (Respond 200 challenge)
  else emit (Respond 403 (JStr (js "Verification failed"))).

(** *** The message formatter *)

Definition statusEmoji : list (js_string * js_string) :=
  [(js "A", js "✅");
   (js "D", js "❌");
   (js "F", js "⚠️");
   (js "P", js "⚠️")].

(** [statusEmoji] is an object literal, so a key it does not define is
    looked up in [Object.prototype].  Each inherited property is listed
    with the text a template literal renders its value as; every one of
    these values is a function or an object, hence truthy. *)
Definition Object_prototype : list (js_string * js_string) :=
  [(js "constructor", js "function Object() { [native code] }");
   (js "__defineGetter__", js "function __defineGetter__() { [native code] }");
   (js "__defineSetter__", js "function __defineSetter__() { [native code] }");
   (js "hasOwnProperty", js "function hasOwnProperty() { [native code] }");
   (js "__lookupGetter__", js "function __lookupGetter__() { [native code] }");
   (js "__lookupSetter__", js "function __lookupSetter__() { [native code] }");
   (js "isPrototypeOf", js "function isPrototypeOf() { [native code] }");
   (js "propertyIsEnumerable",
      js "function propertyIsEnumerable() { [native code] }");
   (js "toString", js "function toString() { [native code] }");
   (js "valueOf", js "function valueOf() { [native code] }");
   (js "__proto__", js "[object Object]");
   (js "toLocaleString", js "function toLocaleString() { [native code] }")].

Fixpoint lookup (key : js_string) (table : list (js_string * js_string))
  : option js_string :=
  match table with
  | [] => None
  | (k, v) :: rest => if str_eqb k key then Some v else lookup key rest
  end.

(** [statusEmoji[key] || '📋'], as rendered in the template. *)
Definition emoji_of (key : js_string) : js_string :=
  match lookup key statusEmoji with
  | Some glyph => glyph
  | None =>
      match lookup key Object_prototype with
      | Some inherited => inherited
      | None => js "📋"
      end
  end.

Definition rule : js_string := js "━━━━━━━━━━━━━━━━━━━━━━".

(** The template literal that [formatResponseMessage] returns, with its
    four interpolated texts. *)
Definition result_template
    (emoji approvalNumber overallResponse csMessage : js_string)
  : js_string :=
  lines
    [emoji ++ js " *نتيجة الموافقة المسبقة / Preauthorization Result*";
     [];
     js "*رقم الموافقة / Approval Number:* " ++ approvalNumber;
     [];
     js "*الحالة / Status:* " ++ overallResponse;
     [];
     rule;
     [];
     csMessage;
     [];
     rule;
     [];
     js "🤖 _تم المعالجة تلقائياً بواسطة الذكاء الاصطناعي_";
     js "_Processed automatically by AI_";
     [];
     js "_للمزيد من التفاصيل، يرجى مراجعة نظام MEDGO_";
     js "_For more details, please check MEDGO system_"].

(** [overallResponse] is converted to a property key for the table and
    to a string for the template; [csMessage] is converted for the
    template. *)
Definition formatResponseMessage
    (approvalNumber : js_string) (csMessage overallResponse : JsValue)
  : Outcome js_string :=
  match ToString overallResponse with
  | Throw e => Throw e
  | Ok status_text =>
      let emoji := emoji_of status_text in
      match ToString csMessage with
      | Throw e => Throw e
      | Ok cs_text =>
          Ok (result_template emoji approvalNumber status_text cs_text)
      end
  end.

(** *** The fixed message texts *)

Definition helpMessage : js_string :=
  lines
    [js "مرحباً! 👋";
     [];
     js "للاستعلام عن حالة الموافقة المسبقة، يرجى إرسال رقم الموافقة (8 أرقام).";
     [];
     js "مثال: 88825481";
     [];
     rule;
     [];
     js "Hello! 👋";
     [];
     js "To check your preauthorization status, please send your approval number (8 digits).";
     [];
     js "Example: 88825481";
     [];
     js "🤖 Tawuniya AI Assistant"].

Definition errorMessage (errorText : js_string) : js_string :=
  lines
    [js "⚠️ " ++ errorText;
     [];
     js "يرجى المحاولة مرة أخرى أو الاتصال بخدمة العملاء.";
     js "Please try again or contact customer service.";
     [];
     js "📞 920000812"].

Definition failed_to_process : js_string :=
  js "فشل في معالجة الطلب / Failed to process request".

Definition an_error_occurred : js_string :=
  js "حدث خطأ / An error occurred".

(** The message of the [catch (apiError)] branch ([ackMessage] in
    [webhook_server.js], [fallbackMessage] in the other file). *)
Definition fallbackMessage (approvalNumber : js_string) : js_string :=
  lines
    [js "تم استلام رقم الموافقة: " ++ approvalNumber;
     [];
     js "سيتم معالجة طلبك قريباً.";
     [];
     js "Approval number received: " ++ approvalNumber;
     js "Your request will be processed shortly."].

Section Senders.
Variable sendResponseMessage : JsValue -> js_string -> M unit.

Definition sendHelpMessage (phoneNumber : JsValue) : M unit :=
  let message := helpMessage in
  sendResponseMessage phoneNumber message.

Definition sendErrorMessage (phoneNumber : JsValue) (errorText : js_string)
  : M unit :=
  let message := errorMessage errorText in
  sendResponseMessage phoneNumber message.

End Senders.

(** *** The webhook message receiver *)

Section Ingress.
Variable processIncomingMessage : JsValue -> JsValue -> M unit.

(** Body of [for (const message of messages)]. *)
Definition forMessage (message : JsValue) : M unit :=
  fromNumber <- lift (get message (js "from")) ;;
  messageId <- lift (get message (js "id")) ;;
  messageType <- lift (get message (js "type")) ;;
  if negb (strict_equals_string messageType (js "text"))
  then console_log [messageType]   (* continue *)
  else
    text <- lift (get message (js "text")) ;;
    text_body <- lift (get_optional text (js "body")) ;;
    let messageText := or_else text_body (JStr []) in
    console_log [fromNumber; messageText] ;;
    processIncomingMessage fromNumber messageText.

(** Body of [for (const change of entry.changes || [])]. *)
Definition forChange (change : JsValue) : M unit :=
  change_value <- lift (get change (js "value")) ;;
  let value := or_else change_value (JObj []) in
  value_messages <- lift (get value (js "messages")) ;;
  let messages := or_else value_messages (JArr []) in
  for_of messages forMessage.

(** Body of [for (const entry of data.entry)]. *)
Definition forEntry (entry : JsValue) : M unit :=
  changes <- lift (get entry (js "changes")) ;;
  for_of (or_else changes (JArr [])) forChange.

Definition success_body : JsValue :=
  JObj [(js "status", JStr (js "success"))].

(** The [try] block of the handler. *)
Definition handleIncomingWebhook_try (req : Request) : M unit :=
  let data := body req in
  emit (Respond 200 success_body) ;;
  data_entry <- lift (get data (js "entry")) ;;
  if negb (truthy data_entry) then ret tt
  else for_of data_entry forEntry.

Definition handleIncomingWebhook : Handler := fun req =>
  try_catch (handleIncomingWebhook_try req)
    (fun error => ret tt).

End Ingress.

End Shared.

(* ===================================================================== *)
(** ** [webhook_server.js] *)
(* ===================================================================== *)

Module WebhookServer.
Import Js Runtime Shared.

Section Server.
Variable env : ProcessEnv.
Variable world : World.

Definition VERIFY_TOKEN : js_string :=
  env_or (env_WHATSAPP_VERIFY_TOKEN env) (js "wa_api_2026").

(** The delivery request is the first statement of the [try] block; what
    follows it only writes to the console. *)
Definition sendResponseMessage (phoneNumber : JsValue) (message : js_string)
  : M unit :=
  try_catch
    (promise <- axios_post_delivery world phoneNumber message ;;
     response <- await promise ;;
     if (status response =? 200)%Z
     then console_log [phoneNumber]
     else ret tt)
    (fun error => ret tt).

Definition sendHelpMessage := Shared.sendHelpMessage sendResponseMessage.
Definition sendErrorMessage := Shared.sendErrorMessage sendResponseMessage.

Definition processIncomingMessage (phoneNumber messageText : JsValue)
  : M unit :=
  try_catch
    (approvalNumber <- lift (call_trim messageText) ;;
     if negb (regex_8_digits_test approvalNumber)
     then sendHelpMessage phoneNumber   (* return *)
     else
       try_catch
         (promise <- axios_post_processing world approvalNumber ;;
          response <- await promise ;;
          let result := data response in
          summary <- lift (and_get result (js "ui_output_8")) ;;
          if truthy summary
          then
            csMessage <- lift (get result (js "ui_output_8")) ;;
            overall <- lift (get result (js "overall_response")) ;;
            let overallResponse := or_else overall (JStr (js "A")) in
            formattedMessage <-
              lift (formatResponseMessage approvalNumber csMessage
                      overallResponse) ;;
            sendResponseMessage phoneNumber formattedMessage
          else sendErrorMessage phoneNumber failed_to_process)
         (fun apiError =>
            let ackMessage := fallbackMessage approvalNumber in
            sendResponseMessage phoneNumber ackMessage))
    (fun error => sendErrorMessage phoneNumber an_error_occurred).

Definition handleIncomingWebhook : Handler :=
  Shared.handleIncomingWebhook processIncomingMessage.

(** The routes of the file, in the order it registers them. *)
Definition routes : list (Method * js_string * Handler) :=
  [(GET, js "/health", health);
   (GET, js "/webhook", handleVerification VERIFY_TOKEN);
   (POST, js "/webhook", handleIncomingWebhook)].

Definition server (m : Method) (path : js_string) (req : Request)
  : option (M unit) :=
  match route routes m path with
  | Some handler => Some (handler req)
  | None => None
  end.

End Server.

End WebhookServer.

(* ===================================================================== *)
(** ** The server file that also serves the root path *)
(* ===================================================================== *)

Module RootServer.
Import Js Runtime Shared.

Section Server.
Variable env : ProcessEnv.
Variable world : World.

Definition VERIFY_TOKEN : js_string :=
  env_or (env_VERIFY_TOKEN env)
    (env_or (env_WHATSAPP_VERIFY_TOKEN env) (js "wa_api_2026")).

(** The [try] block first logs the target, interpolating [phoneNumber],
    and only then issues the delivery request; what follows the request
    only writes to the console. *)
Definition sendResponseMessage (phoneNumber : JsValue) (message : js_string)
  : M unit :=
  try_catch
    (console_log [phoneNumber] ;;
     promise <- axios_post_delivery world phoneNumber message ;;
     response <- await promise ;;
     if (status response =? 200)%Z
     then console_log [phoneNumber]
     else ret tt)
    (fun error => ret tt).

Definition sendHelpMessage := Shared.sendHelpMessage sendResponseMessage.
Definition sendErrorMessage := Shared.sendErrorMessage sendResponseMessage.

Definition acknowledgment (approvalNumber : js_string) : js_string :=
  lines
    [js "🤖 I'm AI Agent, I'll check your request and reply ASAP";
     [];
     js "أنا وكيل الذكاء الاصطناعي، سأتحقق من طلبك وأرد في أقرب وقت";
     [];
     js "Approval Number: " ++ approvalNumber].

Definition processIncomingMessage (phoneNumber messageText : JsValue)
  : M unit :=
  try_catch
    (console_log [phoneNumber; messageText] ;;
     approvalNumber <- lift (call_trim messageText) ;;
     if negb (regex_8_digits_test approvalNumber)
     then sendHelpMessage phoneNumber   (* return *)
     else
       try_catch
         (apiPromise <- axios_post_processing world approvalNumber ;;
          (* await new Promise(resolve => setTimeout(resolve, 500)) *)
          sendResponseMessage phoneNumber (acknowledgment approvalNumber) ;;
          response <- await apiPromise ;;
          let result := data response in
          summary <- lift (and_get result (js "ui_output_8")) ;;
          if truthy summary
          then
            csMessage <- lift (get result (js "ui_output_8")) ;;
            overall <- lift (get result (js "overall_response")) ;;
            let overallResponse := or_else overall (JStr (js "A")) in
            console_log [overallResponse] ;;
            formattedMessage <-
              lift (formatResponseMessage approvalNumber csMessage
                      overallResponse) ;;
            sendResponseMessage phoneNumber formattedMessage
          else sendErrorMessage phoneNumber failed_to_process)
         (fun apiError =>
            sendResponseMessage phoneNumber (fallbackMessage approvalNumber)))
    (fun error => sendErrorMessage phoneNumber an_error_occurred).

Definition handleIncomingWebhook : Handler :=
  Shared.handleIncomingWebhook processIncomingMessage.

(** The routes of the file, in the order it registers them. *)
Definition routes : list (Method * js_string * Handler) :=
  [(GET, js "/health", health);
   (GET, js "/", handleVerification VERIFY_TOKEN);
   (GET, js "/webhook", handleVerification VERIFY_TOKEN);
   (POST, js "/", handleIncomingWebhook);
   (POST, js "/webhook", handleIncomingWebhook)].

Definition server (m : Method) (path : js_string) (req : Request)
  : option (M unit) :=
  match route routes m path with
  | Some handler => Some (handler req)
  | None => None
  end.

End Server.

End RootServer.

(* ===================================================================== *)
(** ** Vocabulary of the properties *)
(* ===================================================================== *)

Module Props.
Import Js Runtime Shared.




(** The test [result && result.ui_output_8] of the orchestrator. *)
Definition has_summary (result : JsValue) : bool :=
  match and_get result (js "ui_output_8") with
  | Ok summary => truthy summary
  | Throw _ => false
  end.

(** The final message for a settled processing call: the fallback when
    the call was rejected or the result could not be rendered, the
    format-error text when the result has no summary, the formatted
    result otherwise. *)
Definition final_reply (settled : AxiosResult) (approvalNumber : js_string)
  : js_string :=
  match settled with
  | Rejected => fallbackMessage approvalNumber
  | Resolved response =>
      let result := data response in
      if has_summary result then
        match get result (js "ui_output_8"),
              get result (js "overall_response") with
        | Ok csMessage, Ok overall =>
            match formatResponseMessage approvalNumber csMessage
                    (or_else overall (JStr (js "A"))) with
            | Ok formattedMessage => formattedMessage
            | Throw _ => fallbackMessage approvalNumber
            end
        | _, _ => fallbackMessage approvalNumber
        end
      else errorMessage failed_to_process
  end.

(** [v] is an object without the property [key]. *)
Definition lacks (key : js_string) (v : JsValue) : Prop :=
  exists props, v = JObj props /\ own_property key props = None.

(** [pre ++ part ++ post]: [part] occurs in the text. *)
Definition contains (text part : js_string) : Prop :=
  exists pre post, text = pre ++ part ++ post.


Definition notification (messages : list JsValue) : JsValue :=
  JObj [(js "object", JStr (js "whatsapp_business_account"));
        (js "entry",
         JArr [JObj [(js "id", JStr (js "0"));
                     (js "changes",
                      JArr [JObj [(js "field", JStr (js "messages"));
                                  (js "value",
                                   JObj [(js "messages", JArr messages)])]])]])].

Definition post (payload : JsValue) : Request :=
  {| query := []; body := payload |}.

Definition verification_query (mode token challenge : JsValue) : Request :=
  {| query := [(js "hub.mode", mode);
               (js "hub.verify_token", token);
               (js "hub.challenge", challenge)];
     body := JUndefined |}.



(** Sample environments: a processing endpoint that always resolves with
    the given data, one that always rejects; deliveries succeed. *)
Definition delivered : AxiosResult :=
  Resolved {| status := 200; data := JObj [] |}.

Definition resolving (result : JsValue) : World :=
  {| processing_endpoint := fun _ _ => Resolved {| status := 200; data := result |};
     delivery_endpoint := fun _ _ _ => delivered |}.

Definition rejecting : World :=
  {| processing_endpoint := fun _ _ => Rejected;
     delivery_endpoint := fun _ _ _ => delivered |}.

Definition no_env : ProcessEnv :=
  {| env_PORT := None; env_VERIFY_TOKEN := None;
     env_WHATSAPP_VERIFY_TOKEN := None; env_PROCESSING_API_URL := None |}.

(** A computation that never answers the HTTP request. *)
Definition no_response {A} (m : M A) : Prop :=
  forall h, responses (snd (m h)) = [].




End Props.
(* ===================================================================== *)
(** ** Vocabulary of the further properties *)
(* ===================================================================== *)

Module Traces.
Import Js Runtime Shared Props.

(** Every event a computation adds satisfies [P], whatever happened
    before. *)
Definition emits {A} (P : Event -> Prop) (m : M A) : Prop :=
  forall h, Forall P (snd (m h)).

(** What an orchestration for [phoneNumber] may do: ask the processing
    endpoint about an eight-digit code, and write to [phoneNumber]. *)
Definition orchestrator_event (phoneNumber : JsValue) (e : Event) : Prop :=
  match e with
  | Respond _ _ => False
  | ProcessingRequest a => regex_8_digits_test a = true
  | DeliveryRequest p _ => p = phoneNumber
  end.

Definition eight_digits_only (e : Event) : Prop :=
  match e with
  | ProcessingRequest a => regex_8_digits_test a = true
  | _ => True
  end.

(** The same processing endpoint with another delivery endpoint. *)
Definition with_delivery (world : World)
    (delivery : list Event -> JsValue -> js_string -> AxiosResult) : World :=
  {| processing_endpoint := processing_endpoint world;
     delivery_endpoint := delivery |}.

(** A delivery endpoint that rejects every request. *)
Definition undeliverable (world : World) : World :=
  with_delivery world (fun _ _ _ => Rejected).





(** A message the loop skips: its [type] can be logged and is not the
    string "text". *)
Definition not_a_text_message (message : JsValue) : Prop :=
  exists type_value type_text,
    get message (js "type") = Ok type_value
    /\ strict_equals_string type_value (js "text") = false
    /\ ToString type_value = Ok type_text.

Definition image_message (sender : js_string) : JsValue :=
  JObj [(js "from", JStr sender);
        (js "id", JStr (js "wamid.2"));
        (js "type", JStr (js "image"));
        (js "image", JObj [(js "id", JStr (js "1"))])].

(** A payload the extraction fails on: there is no body to read [entry]
    from, or [entry] is there and cannot be iterated. *)
Inductive unreadable_payload : JsValue -> Prop :=
| body_without_properties payload :
    get payload (js "entry") = Throw TypeError ->
    unreadable_payload payload
| entry_not_iterable payload entry :
    get payload (js "entry") = Ok entry ->
    truthy entry = true ->
    iterate entry = Throw TypeError ->
    unreadable_payload payload.


End Traces.

(* ===================================================================== *)
(** ** Running the handlers *)
(* ===================================================================== *)

Import Js Runtime Shared Props.
Unset Implicit Arguments.

Ltac run := unfold bind, try_catch, lift, ret, emit, throw; cbv beta iota zeta.

Lemma console_log_one v h :
  console_log [v] h
  = (match ToString v with Ok _ => Ok tt | Throw e => Throw e end, []).
Proof. unfold console_log. run. destruct (ToString v); reflexivity. Qed.

Lemma console_log_Ok v s h :
  ToString v = Ok s -> console_log [v] h = (Ok tt, []).
Proof. intros H. rewrite console_log_one, H. reflexivity. Qed.

(** A string is always convertible. *)
Lemma ToString_JStr s : ToString (JStr s) = Ok s.
Proof. reflexivity. Qed.

(** *** Sending never throws

    Both files issue one delivery request per call when the recipient
    can be logged; whether the endpoint accepts it changes nothing. *)

Lemma WebhookServer_send world phone m h :
  WebhookServer.sendResponseMessage world phone m h
  = (Ok tt, [DeliveryRequest phone m]).
Proof.
  unfold WebhookServer.sendResponseMessage, axios_post_delivery, await. run.
  destruct (delivery_endpoint world h phone m) as [r|]; run.
  - destruct (status r =? 200)%Z; run; [|reflexivity].
    rewrite console_log_one. destruct (ToString phone); reflexivity.
  - reflexivity.
Qed.

Lemma RootServer_send world phone p m h :
  ToString phone = Ok p ->
  RootServer.sendResponseMessage world phone m h
  = (Ok tt, [DeliveryRequest phone m]).
Proof.
  intros H.
  unfold RootServer.sendResponseMessage, axios_post_delivery, await. run.
  rewrite (console_log_Ok _ _ _ H).
  destruct (delivery_endpoint world _ phone m) as [r|]; run.
  - destruct (status r =? 200)%Z; run; [|reflexivity].
    rewrite (console_log_Ok _ _ _ H). reflexivity.
  - reflexivity.
Qed.

(** When the recipient cannot be converted to a string, the second file
    throws inside the [try] before it reaches the request. *)
Lemma RootServer_send_unloggable world phone e m h :
  ToString phone = Throw e ->
  RootServer.sendResponseMessage world phone m h = (Ok tt, []).
Proof.
  intros H. unfold RootServer.sendResponseMessage. run.
  rewrite console_log_one, H. reflexivity.
Qed.

(** *** The orchestrator on a code that is not eight digits *)

Lemma WebhookServer_help world phone text h :
  regex_8_digits_test (trim text) = false ->
  WebhookServer.processIncomingMessage world phone (JStr text) h
  = (Ok tt, [DeliveryRequest phone helpMessage]).
Proof.
  intros Ht. unfold WebhookServer.processIncomingMessage. run.
  cbn [call_trim]. rewrite Ht. cbn [negb].
  unfold WebhookServer.sendHelpMessage, sendHelpMessage.
  rewrite WebhookServer_send. reflexivity.
Qed.

Lemma RootServer_help world phone p text h :
  ToString phone = Ok p ->
  regex_8_digits_test (trim text) = false ->
  RootServer.processIncomingMessage world phone (JStr text) h
  = (Ok tt, [DeliveryRequest phone helpMessage]).
Proof.
  intros Hp Ht. unfold RootServer.processIncomingMessage. run.
  unfold console_log. run. rewrite Hp. cbn [ToString call_trim]. run.
  rewrite Ht. cbn [negb].
  unfold RootServer.sendHelpMessage, sendHelpMessage.
  rewrite (RootServer_send _ _ _ _ _ Hp). reflexivity.
Qed.

(** *** The orchestrator on an eight-digit code *)

Lemma get_truthy v key : truthy v = true -> exists x, get v key = Ok x.
Proof.
  destruct v; cbn; try discriminate; intros _; eauto.
  destruct (own_property key properties); eauto.
Qed.

Lemma has_summary_get result :
  has_summary result = true ->
  exists cs overall,
    and_get result (js "ui_output_8") = Ok cs /\ truthy cs = true
    /\ get result (js "ui_output_8") = Ok cs
    /\ get result (js "overall_response") = Ok overall.
Proof.
  unfold has_summary, and_get. destruct (truthy result) eqn:T.
  - destruct (get_truthy result (js "overall_response") T) as [ov Hov].
    destruct (get result (js "ui_output_8")) as [cs|] eqn:G; [|discriminate].
    intros Hc. exists cs, ov. auto.
  - intros H. congruence.
Qed.

Lemma has_no_summary_get result :
  has_summary result = false ->
  exists s, and_get result (js "ui_output_8") = Ok s /\ truthy s = false.
Proof.
  unfold has_summary, and_get. destruct (truthy result) eqn:T.
  - destruct (get_truthy result (js "ui_output_8") T) as [x Hx].
    rewrite Hx. eauto.
  - eauto.
Qed.

Lemma format_throws_with_status a cs ov e :
  ToString ov = Throw e -> formatResponseMessage a cs ov = Throw e.
Proof. intros H. unfold formatResponseMessage. rewrite H. reflexivity. Qed.

Lemma WebhookServer_valid world phone text h :
  regex_8_digits_test (trim text) = true ->
  let a := trim text in
  WebhookServer.processIncomingMessage world phone (JStr text) h
  = (Ok tt,
     [ProcessingRequest a;
      DeliveryRequest phone (final_reply (processing_endpoint world h a) a)]).
Proof.
  intros Ht a. unfold WebhookServer.processIncomingMessage. run.
  cbn [call_trim]. rewrite Ht. fold a. cbn [negb].
  unfold axios_post_processing, await. rewrite !app_nil_r.
  destruct (processing_endpoint world h a) as [r|]; run; cbn [final_reply].
  2:{ rewrite WebhookServer_send. reflexivity. }
  destruct (has_summary (data r)) eqn:S.
  - destruct (has_summary_get _ S) as (cs & ov & Ha & Tc & Gc & Go).
    rewrite Ha, Tc, Gc, Go.
    destruct (formatResponseMessage a cs (or_else ov (JStr (js "A")))) as [m|e].
    + rewrite WebhookServer_send. reflexivity.
    + rewrite WebhookServer_send. reflexivity.
  - destruct (has_no_summary_get _ S) as (s & Ha & Ts).
    rewrite Ha, Ts.
    unfold WebhookServer.sendErrorMessage, sendErrorMessage.
    rewrite WebhookServer_send. reflexivity.
Qed.

Lemma RootServer_valid world phone p text h :
  ToString phone = Ok p ->
  regex_8_digits_test (trim text) = true ->
  let a := trim text in
  RootServer.processIncomingMessage world phone (JStr text) h
  = (Ok tt,
     [ProcessingRequest a;
      DeliveryRequest phone (RootServer.acknowledgment a);
      DeliveryRequest phone (final_reply (processing_endpoint world h a) a)]).
Proof.
  intros Hp Ht a. unfold RootServer.processIncomingMessage. run.
  unfold console_log. run. rewrite Hp. cbn [ToString call_trim]. run.
  rewrite Ht. fold a. cbn [negb].
  unfold axios_post_processing, await. rewrite !app_nil_r.
  rewrite (RootServer_send _ _ _ _ _ Hp).
  destruct (processing_endpoint world h a) as [r|]; run; cbn [final_reply].
  2:{ rewrite (RootServer_send _ _ _ _ _ Hp). reflexivity. }
  destruct (has_summary (data r)) eqn:S.
  - destruct (has_summary_get _ S) as (cs & ov & Ha & Tc & Gc & Go).
    rewrite Ha, Tc, Gc, Go.
    destruct (ToString (or_else ov (JStr (js "A")))) as [st|e] eqn:Hst.
    + destruct (formatResponseMessage a cs (or_else ov (JStr (js "A")))) as [m|e'].
      * rewrite (RootServer_send _ _ _ _ _ Hp). reflexivity.
      * rewrite (RootServer_send _ _ _ _ _ Hp). reflexivity.
    + rewrite (format_throws_with_status _ _ _ _ Hst).
      rewrite (RootServer_send _ _ _ _ _ Hp). reflexivity.
  - destruct (has_no_summary_get _ S) as (s & Ha & Ts).
    rewrite Ha, Ts.
    unfold RootServer.sendErrorMessage, sendErrorMessage.
    rewrite (RootServer_send _ _ _ _ _ Hp). reflexivity.
Qed.

(** *** First code units: telling the message kinds apart *)

Lemma str_eqb_refl s : str_eqb s s = true.
Proof. induction s as [|c s IH]; cbn; [reflexivity|]. now rewrite N.eqb_refl. Qed.

Lemma str_eqb_eq a b : str_eqb a b = true <-> a = b.
Proof.
  split; [|intros ->; apply str_eqb_refl].
  revert b. induction a as [|x a IH]; destruct b as [|y b]; cbn;
    try discriminate; auto.
  intros H. apply andb_true_iff in H as [Hx Hr].
  apply N.eqb_eq in Hx. subst. f_equal. auto.
Qed.










(* ===================================================================== *)
(** ** The orchestrator *)
(* ===================================================================== *)




(** C3: a text whose trimmed form is not eight digits gets the help
    template, and only that: one delivery request, no processing
    request, no throw.  Holds in both files. *)
Theorem C3_help_and_no_processing_call world phone p text h :
  ToString phone = Ok p ->
  regex_8_digits_test (trim text) = false ->
  (RootServer.processIncomingMessage world phone (JStr text) h
   = (Ok tt, [DeliveryRequest phone helpMessage])
   /\ WebhookServer.processIncomingMessage world phone (JStr text) h
      = (Ok tt, [DeliveryRequest phone helpMessage]))
  /\ processing_requests [DeliveryRequest phone helpMessage] = [].
Proof.
  intros Hp Ht. split; [split|reflexivity].
  - exact (RootServer_help world phone p text h Hp Ht).
  - exact (WebhookServer_help world phone text h Ht).
Qed.

Lemma C3_witness :
  let phone := JStr (js "966500000000") in
  let text := js "hello 1234567" in
  (RootServer.processIncomingMessage rejecting phone (JStr text) []
   = (Ok tt, [DeliveryRequest phone helpMessage])
   /\ WebhookServer.processIncomingMessage rejecting phone (JStr text) []
      = (Ok tt, [DeliveryRequest phone helpMessage]))
  /\ processing_requests [DeliveryRequest phone helpMessage] = [].
Proof.
  exact (C3_help_and_no_processing_call rejecting
           (JStr (js "966500000000")) (js "966500000000")
           (js "hello 1234567") [] eq_refl eq_refl).
Defined.



(** An object without the [ui_output_8] field has no summary, and
    neither has a result that is itself falsy. *)
Lemma lacks_summary_field result :
  lacks (js "ui_output_8") result -> has_summary result = false.
Proof.
  intros (props & -> & H). unfold has_summary, and_get.
  cbn [truthy get]. rewrite H. reflexivity.
Qed.

(** C6: when the processing call for a valid code resolves but the test
    [result && result.ui_output_8] fails (the field is absent or falsy,
    or there is no result), the last message sent is the generic
    bilingual error text built around "Failed to process request", not
    the formatted template.  Holds in both files. *)
Theorem C6_missing_summary_gives_error_text world phone p text h response :
  ToString phone = Ok p ->
  regex_8_digits_test (trim text) = true ->
  processing_endpoint world h (trim text) = Resolved response ->
  has_summary (data response) = false ->
  let a := trim text in
  RootServer.processIncomingMessage world phone (JStr text) h
  = (Ok tt, [ProcessingRequest a;
             DeliveryRequest phone (RootServer.acknowledgment a);
             DeliveryRequest phone (errorMessage failed_to_process)])
  /\ WebhookServer.processIncomingMessage world phone (JStr text) h
     = (Ok tt, [ProcessingRequest a;
                DeliveryRequest phone (errorMessage failed_to_process)]).
Proof.
  intros Hp Ht Hr Hs a. split.
  - rewrite (RootServer_valid world phone p text h Hp Ht).
    cbv zeta. rewrite Hr. cbn [final_reply]. rewrite Hs. reflexivity.
  - rewrite (WebhookServer_valid world phone text h Ht).
    cbv zeta. rewrite Hr. cbn [final_reply]. rewrite Hs. reflexivity.
Qed.

Lemma C6_witness :
  let phone := JStr (js "966500000000") in
  let text := js "12345678" in
  let world := resolving (JObj [(js "overall_response", JStr (js "A"))]) in
  let a := trim text in
  RootServer.processIncomingMessage world phone (JStr text) []
  = (Ok tt, [ProcessingRequest a;
             DeliveryRequest phone (RootServer.acknowledgment a);
             DeliveryRequest phone (errorMessage failed_to_process)])
  /\ WebhookServer.processIncomingMessage world phone (JStr text) []
     = (Ok tt, [ProcessingRequest a;
                DeliveryRequest phone (errorMessage failed_to_process)]).
Proof.
  exact (C6_missing_summary_gives_error_text
           (resolving (JObj [(js "overall_response", JStr (js "A"))]))
           (JStr (js "966500000000")) (js "966500000000")
           (js "12345678") []
           {| status := 200;
              data := JObj [(js "overall_response", JStr (js "A"))] |}
           eq_refl eq_refl eq_refl
           (lacks_summary_field _
              (ex_intro _ [(js "overall_response", JStr (js "A"))]
                 (conj eq_refl eq_refl)))).
Defined.

(** C10: when the result carries a non-empty summary text and its
    [overall_response] is absent or falsy, the status defaults to A: the
    final message is the result template with the check-mark glyph, the
    status letter A and the summary.  Holds in both files. *)
Theorem C10_status_defaults_to_A world phone p text h response props summary :
  ToString phone = Ok p ->
  regex_8_digits_test (trim text) = true ->
  processing_endpoint world h (trim text) = Resolved response ->
  data response = JObj props ->
  own_property (js "ui_output_8") props = Some (JStr summary) ->
  summary <> [] ->
  match own_property (js "overall_response") props with
  | Some overall => truthy overall = false
  | None => True
  end ->
  let a := trim text in
  let final := result_template (js "✅") a (js "A") summary in
  RootServer.processIncomingMessage world phone (JStr text) h
  = (Ok tt, [ProcessingRequest a;
             DeliveryRequest phone (RootServer.acknowledgment a);
             DeliveryRequest phone final])
  /\ WebhookServer.processIncomingMessage world phone (JStr text) h
     = (Ok tt, [ProcessingRequest a; DeliveryRequest phone final]).
Proof.
  intros Hp Ht Hr Hd Hs Hne Ho a final.
  assert (F : final_reply (Resolved response) a = final).
  { cbn [final_reply]. unfold has_summary, and_get. rewrite Hd.
    cbn [truthy get]. rewrite Hs. cbn [truthy].
    destruct summary as [|c s]; [congruence|].
    assert (O : or_else
                  match own_property (js "overall_response") props with
                  | Some x => x
                  | None => JUndefined
                  end (JStr (js "A")) = JStr (js "A")).
    { unfold or_else.
      destruct (own_property (js "overall_response") props) as [ov|].
      - rewrite Ho. reflexivity.
      - reflexivity. }
    destruct (own_property (js "overall_response") props) as [ov|];
      cbn [or_else] in O |- *; rewrite O; reflexivity. }
  split.
  - rewrite (RootServer_valid world phone p text h Hp Ht).
    cbv zeta. rewrite Hr. fold a. rewrite F. reflexivity.
  - rewrite (WebhookServer_valid world phone text h Ht).
    cbv zeta. rewrite Hr. fold a. rewrite F. reflexivity.
Qed.

Lemma C10_witness :
  let phone := JStr (js "966500000000") in
  let text := js "12345678" in
  let world := resolving (JObj [(js "ui_output_8", JStr (js "Approved"))]) in
  let a := trim text in
  let final := result_template (js "✅") a (js "A") (js "Approved") in
  RootServer.processIncomingMessage world phone (JStr text) []
  = (Ok tt, [ProcessingRequest a;
             DeliveryRequest phone (RootServer.acknowledgment a);
             DeliveryRequest phone final])
  /\ WebhookServer.processIncomingMessage world phone (JStr text) []
     = (Ok tt, [ProcessingRequest a; DeliveryRequest phone final]).
Proof.
  refine (C10_status_defaults_to_A
           (resolving (JObj [(js "ui_output_8", JStr (js "Approved"))]))
           (JStr (js "966500000000")) (js "966500000000")
           (js "12345678") []
           {| status := 200;
              data := JObj [(js "ui_output_8", JStr (js "Approved"))] |}
           [(js "ui_output_8", JStr (js "Approved"))] (js "Approved")
           eq_refl eq_refl eq_refl eq_refl eq_refl _ I).
  vm_compute. discriminate.
Defined.

(* ===================================================================== *)
(** ** The message formatter *)
(* ===================================================================== *)

(** The table of the four status letters, and the generic glyph for a
    status that is neither one of them nor the name of a property that
    every object inherits. *)
Lemma emoji_of_table :
  emoji_of (js "A") = js "✅"
  /\ emoji_of (js "D") = js "❌"
  /\ emoji_of (js "F") = js "⚠️"
  /\ emoji_of (js "P") = js "⚠️".
Proof. repeat split; vm_compute; reflexivity. Qed.

Lemma emoji_of_other key :
  lookup key statusEmoji = None ->
  lookup key Object_prototype = None ->
  emoji_of key = js "📋".
Proof. intros H1 H2. unfold emoji_of. rewrite H1, H2. reflexivity. Qed.

Lemma lines_cons l ls : ls <> [] -> lines (l :: ls) = l ++ 10%N :: lines ls.
Proof. destruct ls; [congruence|reflexivity]. Qed.

Lemma contains_self x : contains x x.
Proof. exists [], []. now rewrite app_nil_r. Qed.

Lemma contains_app_left m r part : contains m part -> contains (m ++ r) part.
Proof.
  intros (pre & post & ->). exists pre, (post ++ r).
  now rewrite <- !app_assoc.
Qed.

Lemma contains_app_right l m part : contains m part -> contains (l ++ m) part.
Proof.
  intros (pre & post & ->). exists (l ++ pre), post.
  now rewrite <- !app_assoc.
Qed.

Lemma contains_cons c m part : contains m part -> contains (c :: m) part.
Proof. intros (pre & post & ->). exists (c :: pre), post. reflexivity. Qed.

(** The template carries the glyph in front, and the approval number,
    the status and the summary as they are given. *)
Lemma result_template_contains emoji a st cs :
  let m := result_template emoji a st cs in
  (exists post, m = emoji ++ post)
  /\ contains m a /\ contains m st /\ contains m cs.
Proof.
  cbv zeta. unfold result_template.
  repeat (rewrite lines_cons by discriminate).
  split; [|split; [|split]].
  - rewrite <- app_assoc. eexists. reflexivity.
  - do 2 (apply contains_app_right, contains_cons).
    apply contains_app_left, contains_app_right, contains_self.
  - do 4 (apply contains_app_right, contains_cons).
    apply contains_app_left, contains_app_right, contains_self.
  - do 8 (apply contains_app_right, contains_cons).
    apply contains_app_left, contains_self.
Qed.

Lemma emoji_of_constructor :
  emoji_of (js "constructor") = js "function Object() { [native code] }".
Proof. vm_compute. reflexivity. Qed.

(** With a status letter of the table and a summary text, the formatter
    returns the template with the glyph of that letter: for the status A
    the message starts with the check mark and carries the approval
    number, the letter A and the summary as given. *)
Lemma formatResponseMessage_A a x :
  let m := result_template (js "✅") a (js "A") x in
  formatResponseMessage a (JStr x) (JStr (js "A")) = Ok m
  /\ (exists post, m = js "✅" ++ post)
  /\ contains m a /\ contains m (js "A") /\ contains m x.
Proof.
  cbv zeta. split; [|apply result_template_contains].
  unfold formatResponseMessage. cbn [ToString].
  now rewrite (proj1 emoji_of_table).
Qed.

(** C5 (the code departs from the claim): the glyph is looked up in an
    object literal, so a status that names a property inherited from
    [Object.prototype] does not get the generic glyph.  For the status
    "constructor" the message starts with the text of the [Object]
    function instead. *)
Theorem C5_inherited_name_is_not_generic a x :
  formatResponseMessage a (JStr x) (JStr (js "constructor"))
  = Ok (result_template (js "function Object() { [native code] }")
          a (js "constructor") x)
  /\ emoji_of (js "constructor") <> js "📋".
Proof.
  split.
  - unfold formatResponseMessage. cbn [ToString].
    now rewrite emoji_of_constructor.
  - rewrite emoji_of_constructor. vm_compute. discriminate.
Qed.

(* ===================================================================== *)
(** ** Webhook verification *)
(* ===================================================================== *)

Lemma verification_query_params mode token challenge :
  let req := verification_query mode token challenge in
  query_param req (js "hub.mode") = mode
  /\ query_param req (js "hub.verify_token") = token
  /\ query_param req (js "hub.challenge") = challenge.
Proof. cbv zeta. repeat split; vm_compute; reflexivity. Qed.

Lemma strict_equals_string_iff v s :
  strict_equals_string v s = true <-> v = JStr s.
Proof.
  destruct v; cbn; try (split; [discriminate|intros H; discriminate H]).
  rewrite str_eqb_eq. split; [now intros ->|now intros [= ->]].
Qed.

(** The verification handler answers 200 with the challenge exactly when
    the mode is the string "subscribe" and the token is the configured
    one, and the fixed 403 text otherwise. *)
Lemma handleVerification_spec tok mode token challenge h :
  let req := verification_query mode token challenge in
  (mode = JStr (js "subscribe") /\ token = JStr tok ->
   handleVerification tok req h = (Ok tt, [Respond 200 challenge]))
  /\ (~ (mode = JStr (js "subscribe") /\ token = JStr tok) ->
      handleVerification tok req h
      = (Ok tt, [Respond 403 (JStr (js "Verification failed"))])).
Proof.
  cbv zeta. unfold handleVerification.
  destruct (verification_query_params mode token challenge) as (-> & -> & ->).
  destruct (strict_equals_string mode (js "subscribe")) eqn:Em;
  destruct (strict_equals_string token tok) eqn:Et; cbn [andb];
  split; intros H; try reflexivity.
  - exfalso. apply H. now rewrite <- !strict_equals_string_iff.
  - destruct H as [_ H]. apply strict_equals_string_iff in H. congruence.
  - destruct H as [H _]. apply strict_equals_string_iff in H. congruence.
  - destruct H as [H _]. apply strict_equals_string_iff in H. congruence.
Qed.

Lemma RootServer_routes_GET env world req :
  RootServer.server env world GET (js "/") req
  = Some (handleVerification (RootServer.VERIFY_TOKEN env) req)
  /\ RootServer.server env world GET (js "/webhook") req
     = Some (handleVerification (RootServer.VERIFY_TOKEN env) req).
Proof. split; reflexivity. Qed.

Lemma WebhookServer_routes_GET env world req :
  WebhookServer.server env world GET (js "/webhook") req
  = Some (handleVerification (WebhookServer.VERIFY_TOKEN env) req)
  /\ WebhookServer.server env world GET (js "/") req = None.
Proof. split; reflexivity. Qed.

(** C7 (amended): on every route a file registers for verification --
    GET / and GET /webhook in the file that serves the root path, GET
    /webhook alone in [webhook_server.js] -- the answer is 200 with the
    challenge when the mode is "subscribe" and the token is the
    configured one, and otherwise 403 with the fixed text "Verification
    failed", which is the same whatever the configured token is.
    [webhook_server.js] registers no handler for GET /. *)
Theorem C7_verification_on_registered_routes
    env world mode token challenge h :
  let req := verification_query mode token challenge in
  let verify tok :=
    if strict_equals_string mode (js "subscribe")
       && strict_equals_string token tok
    then (Ok tt, [Respond 200 challenge])
    else (Ok tt, [Respond 403 (JStr (js "Verification failed"))]) in
  (strict_equals_string mode (js "subscribe") = true <->
   mode = JStr (js "subscribe"))
  /\ (forall tok, strict_equals_string token tok = true <-> token = JStr tok)
  /\ option_map (fun m => m h) (RootServer.server env world GET (js "/") req)
     = Some (verify (RootServer.VERIFY_TOKEN env))
  /\ option_map (fun m => m h)
       (RootServer.server env world GET (js "/webhook") req)
     = Some (verify (RootServer.VERIFY_TOKEN env))
  /\ option_map (fun m => m h)
       (WebhookServer.server env world GET (js "/webhook") req)
     = Some (verify (WebhookServer.VERIFY_TOKEN env))
  /\ WebhookServer.server env world GET (js "/") req = None.
Proof.
  cbv zeta.
  split; [apply strict_equals_string_iff|].
  split; [intros tok; apply strict_equals_string_iff|].
  destruct (RootServer_routes_GET env world
              (verification_query mode token challenge)) as [R1 R2].
  destruct (WebhookServer_routes_GET env world
              (verification_query mode token challenge)) as [W1 W2].
  rewrite R1, R2, W1, W2. cbn [option_map]. unfold handleVerification.
  destruct (verification_query_params mode token challenge) as (-> & -> & ->).
  repeat split;
    match goal with
    | |- context [if ?b then _ else _] => destruct b; reflexivity
    end.
Qed.

(** C7 as stated fails on [webhook_server.js]: a verification query with
    the right mode and the configured token that arrives at GET / is not
    answered 200 with the challenge, since no route matches it. *)
Lemma C7_counterexample :
  option_map (fun m => m [])
    (WebhookServer.server no_env rejecting GET (js "/")
       (verification_query (JStr (js "subscribe")) (JStr (js "wa_api_2026"))
          (JStr (js "1158201444"))))
  <> Some (Ok tt, [Respond 200 (JStr (js "1158201444"))]).
Proof. vm_compute. discriminate. Qed.

(* ===================================================================== *)
(** ** The webhook message receiver *)
(* ===================================================================== *)

Lemma responses_app a b : responses (a ++ b) = responses a ++ responses b.
Proof.
  induction a as [|e a IH]; [reflexivity|].
  destruct e; cbn; now rewrite IH.
Qed.

Lemma no_response_ret A (a : A) : no_response (ret a).
Proof. intros h. reflexivity. Qed.

Lemma no_response_lift A (o : Outcome A) : no_response (lift o).
Proof. intros h. reflexivity. Qed.

Lemma no_response_bind A B (m : M A) (k : A -> M B) :
  no_response m -> (forall a, no_response (k a)) -> no_response (bind m k).
Proof.
  intros Hm Hk h. unfold bind. specialize (Hm h).
  destruct (m h) as [[a|e] t]; cbn [snd] in *; [|exact Hm].
  specialize (Hk a (h ++ t)). destruct (k a (h ++ t)) as [r t'].
  cbn [snd] in *. now rewrite responses_app, Hm, Hk.
Qed.

Lemma no_response_try A (m : M A) (handler : Error -> M A) :
  no_response m -> (forall e, no_response (handler e)) ->
  no_response (try_catch m handler).
Proof.
  intros Hm Hk h. unfold try_catch. specialize (Hm h).
  destruct (m h) as [[a|e] t]; cbn [snd] in *; [exact Hm|].
  specialize (Hk e (h ++ t)). destruct (handler e (h ++ t)) as [r t'].
  cbn [snd] in *. now rewrite responses_app, Hm, Hk.
Qed.

Lemma no_response_forEach A (l : list A) (body : A -> M unit) :
  (forall x, no_response (body x)) -> no_response (forEach l body).
Proof.
  intros Hb. induction l as [|x l IH]; cbn [forEach].
  - apply no_response_ret.
  - apply no_response_bind; auto.
Qed.

Lemma no_response_for_of v (body : JsValue -> M unit) :
  (forall x, no_response (body x)) -> no_response (for_of v body).
Proof.
  intros Hb. unfold for_of. apply no_response_bind.
  - apply no_response_lift.
  - intros l. now apply no_response_forEach.
Qed.

Lemma no_response_console_log vs : no_response (console_log vs).
Proof.
  induction vs as [|v vs IH]; cbn [console_log].
  - apply no_response_ret.
  - apply no_response_bind; [apply no_response_lift|auto].
Qed.

Lemma no_response_post_delivery world phone m :
  no_response (axios_post_delivery world phone m).
Proof. intros h. reflexivity. Qed.

Lemma no_response_post_processing world a :
  no_response (axios_post_processing world a).
Proof. intros h. reflexivity. Qed.

Lemma no_response_await p : no_response (await p).
Proof. intros h. destruct p; reflexivity. Qed.

Create HintDb quiet.
#[local] Hint Resolve no_response_ret no_response_lift no_response_console_log
  no_response_post_delivery no_response_post_processing no_response_await
  : quiet.

Ltac quiet :=
  repeat first
    [ progress intros
    | apply no_response_for_of
    | apply no_response_forEach
    | apply no_response_bind
    | apply no_response_try
    | solve [auto with quiet]
    | assumption || (match goal with H : forall _ _, no_response _ |- _ => apply H end)
    | match goal with
      | |- no_response (if ?b then _ else _) => destruct b
      | |- no_response (let _ := _ in _) => cbv zeta
      end ].

Lemma WebhookServer_send_quiet world phone m :
  no_response (WebhookServer.sendResponseMessage world phone m).
Proof. unfold WebhookServer.sendResponseMessage. quiet. Qed.

Lemma RootServer_send_quiet world phone m :
  no_response (RootServer.sendResponseMessage world phone m).
Proof. unfold RootServer.sendResponseMessage. quiet. Qed.

#[local] Hint Resolve WebhookServer_send_quiet RootServer_send_quiet : quiet.





(** *** Absent nesting levels *)

Lemma forEach_nothing A (P : A -> Prop) (body : A -> M unit) l h :
  (forall x h', P x -> body x h' = (Ok tt, [])) ->
  Forall P l -> forEach l body h = (Ok tt, []).
Proof.
  intros Hb Hl. revert h. induction Hl as [|x l Hx Hl IH]; intros h.
  - reflexivity.
  - cbn [forEach]. unfold bind. rewrite (Hb x h Hx), IH. reflexivity.
Qed.

Lemma for_of_array l (body : JsValue -> M unit) h :
  for_of (JArr l) body h = forEach l body h.
Proof.
  unfold for_of. run. cbn [iterate]. rewrite app_nil_r.
  destruct (forEach l body h) as [r t]. reflexivity.
Qed.





(** *** The orchestrator never throws *)






(** *** Several messages in one notification *)




Lemma notification_fields messages :
  get (notification messages) (js "entry")
  = Ok (JArr [JObj [(js "id", JStr (js "0"));
                    (js "changes",
                     JArr [JObj [(js "field", JStr (js "messages"));
                                 (js "value",
                                  JObj [(js "messages", JArr messages)])]])]])
  /\ get (JObj [(js "id", JStr (js "0"));
                (js "changes",
                 JArr [JObj [(js "field", JStr (js "messages"));
                             (js "value",
                              JObj [(js "messages", JArr messages)])]])])
       (js "changes")
     = Ok (JArr [JObj [(js "field", JStr (js "messages"));
                       (js "value", JObj [(js "messages", JArr messages)])]])
  /\ get (JObj [(js "field", JStr (js "messages"));
                (js "value", JObj [(js "messages", JArr messages)])])
       (js "value")
     = Ok (JObj [(js "messages", JArr messages)])
  /\ get (JObj [(js "messages", JArr messages)]) (js "messages")
     = Ok (JArr messages).
Proof. repeat split; vm_compute; reflexivity. Qed.

(** The handler on a notification that carries a list of messages: the
    200 answer, then the message loop over the list. *)
Lemma handleIncomingWebhook_notification orchestrate messages h t :
  forEach messages (forMessage orchestrate)
    (h ++ [Respond 200 success_body]) = (Ok tt, t) ->
  Shared.handleIncomingWebhook orchestrate (post (notification messages)) h
  = (Ok tt, Respond 200 success_body :: t).
Proof.
  intros Hl. destruct (notification_fields messages) as (He & Hc & Hv & Hm).
  unfold Shared.handleIncomingWebhook, handleIncomingWebhook_try, post.
  cbn [body]. run. rewrite He. cbv beta iota. cbn [truthy negb].
  rewrite for_of_array. cbn [forEach]. run.
  unfold forEntry at 1. run. rewrite Hc. cbv beta iota.
  cbn [or_else truthy]. rewrite for_of_array. cbn [forEach]. run.
  unfold forChange at 1. run. rewrite Hv. cbv beta iota.
  cbn [or_else truthy]. rewrite Hm. cbv beta iota. cbn [or_else truthy].
  rewrite for_of_array. rewrite !app_nil_r. rewrite Hl.
  cbn [app]. rewrite !app_nil_r. reflexivity.
Qed.




(* ===================================================================== *)
(** ** Further properties: sending and orchestrating *)
(* ===================================================================== *)

Import Traces.

(** X1: [sendResponseMessage] makes one delivery request and no second
    attempt, and returns normally, whatever the delivery endpoint
    answers: a rejection or a status other than 200 is only logged.  In
    the file that serves the root path this needs a recipient that can
    be logged; [webhook_server.js] sends to any recipient. *)
Theorem X1_send_once_and_swallow_failures world phone p message h :
  ToString phone = Ok p ->
  RootServer.sendResponseMessage world phone message h
  = (Ok tt, [DeliveryRequest phone message])
  /\ WebhookServer.sendResponseMessage world phone message h
     = (Ok tt, [DeliveryRequest phone message]).
Proof.
  intros Hp. split.
  - exact (RootServer_send world phone p message h Hp).
  - exact (WebhookServer_send world phone message h).
Qed.

Lemma X1_witness :
  let world := undeliverable rejecting in
  let phone := JStr (js "966500000000") in
  RootServer.sendResponseMessage world phone helpMessage []
  = (Ok tt, [DeliveryRequest phone helpMessage])
  /\ WebhookServer.sendResponseMessage world phone helpMessage []
     = (Ok tt, [DeliveryRequest phone helpMessage]).
Proof.
  exact (X1_send_once_and_swallow_failures (undeliverable rejecting)
           (JStr (js "966500000000")) (js "966500000000") helpMessage []
           eq_refl).
Defined.

(** *** The orchestrator on every other input *)

Lemma RootServer_unloggable world phone e text h :
  ToString phone = Throw e ->
  RootServer.processIncomingMessage world phone text h = (Ok tt, []).
Proof.
  intros Hp. unfold RootServer.processIncomingMessage. run.
  unfold console_log. run. rewrite Hp. cbv beta iota.
  unfold RootServer.sendErrorMessage, sendErrorMessage. cbv zeta.
  rewrite (RootServer_send_unloggable world phone e _ _ Hp). reflexivity.
Qed.

Lemma call_trim_not_a_string text :
  (forall s, text <> JStr s) -> call_trim text = Throw TypeError.
Proof. destruct text; intros H; try reflexivity. now destruct (H s). Qed.

Lemma RootServer_not_a_string world phone p text h :
  ToString phone = Ok p ->
  (forall s, text <> JStr s) ->
  RootServer.processIncomingMessage world phone text h
  = (Ok tt, [DeliveryRequest phone (errorMessage an_error_occurred)]).
Proof.
  intros Hp Ht. unfold RootServer.processIncomingMessage. run.
  unfold console_log. run. rewrite Hp. cbv beta iota.
  unfold RootServer.sendErrorMessage, sendErrorMessage. cbv zeta.
  destruct (ToString text) as [s|e]; cbv beta iota.
  - rewrite (call_trim_not_a_string text Ht). cbv beta iota.
    rewrite (RootServer_send world phone p _ _ Hp). reflexivity.
  - rewrite (RootServer_send world phone p _ _ Hp). reflexivity.
Qed.

Lemma WebhookServer_not_a_string world phone text h :
  (forall s, text <> JStr s) ->
  WebhookServer.processIncomingMessage world phone text h
  = (Ok tt, [DeliveryRequest phone (errorMessage an_error_occurred)]).
Proof.
  intros Ht. unfold WebhookServer.processIncomingMessage. run.
  rewrite (call_trim_not_a_string text Ht). cbv beta iota.
  unfold WebhookServer.sendErrorMessage, sendErrorMessage. cbv zeta.
  rewrite WebhookServer_send. reflexivity.
Qed.


(** X3: a message text that is not a string (a number, an array, an
    object: [trim] is not a function on it) is answered with the generic
    "An error occurred" message through the outer [catch]; the
    processing endpoint is not called.  Holds in both files. *)
Theorem X3_text_that_is_not_a_string world phone p text h :
  ToString phone = Ok p ->
  (forall s, text <> JStr s) ->
  RootServer.processIncomingMessage world phone text h
  = (Ok tt, [DeliveryRequest phone (errorMessage an_error_occurred)])
  /\ WebhookServer.processIncomingMessage world phone text h
     = (Ok tt, [DeliveryRequest phone (errorMessage an_error_occurred)]).
Proof.
  intros Hp Ht. split.
  - exact (RootServer_not_a_string world phone p text h Hp Ht).
  - exact (WebhookServer_not_a_string world phone text h Ht).
Qed.

Lemma X3_witness :
  let phone := JStr (js "966500000000") in
  let text := JNum {| num_is_zero_or_nan := false;
                      num_text := js "12345678" |} in
  RootServer.processIncomingMessage rejecting phone text []
  = (Ok tt, [DeliveryRequest phone (errorMessage an_error_occurred)])
  /\ WebhookServer.processIncomingMessage rejecting phone text []
     = (Ok tt, [DeliveryRequest phone (errorMessage an_error_occurred)]).
Proof.
  refine (X3_text_that_is_not_a_string rejecting
            (JStr (js "966500000000")) (js "966500000000")
            (JNum {| num_is_zero_or_nan := false;
                     num_text := js "12345678" |}) [] eq_refl _).
  intros s H. discriminate H.
Defined.

(** X4: whatever it is called with, one orchestration sends at most two
    messages and calls the processing endpoint at most once in the file
    that serves the root path, and sends at most one message and calls
    the processing endpoint at most once in [webhook_server.js]. *)
Theorem X4_orchestrator_bounds world phone text h :
  let root := snd (RootServer.processIncomingMessage world phone text h) in
  let legacy := snd (WebhookServer.processIncomingMessage world phone text h) in
  (List.length (deliveries root) <= 2
   /\ List.length (processing_requests root) <= 1)
  /\ (List.length (deliveries legacy) <= 1
      /\ List.length (processing_requests legacy) <= 1).
Proof.
  cbv zeta. split.
  - destruct (ToString phone) as [p|e] eqn:Hp.
    2:{ rewrite (RootServer_unloggable world phone e text h Hp).
        cbn. lia. }
    assert (N : forall t, (forall s, t <> JStr s) ->
             List.length (deliveries (snd
               (RootServer.processIncomingMessage world phone t h))) <= 2
             /\ List.length (processing_requests (snd
               (RootServer.processIncomingMessage world phone t h))) <= 1).
    { intros t Ht. rewrite (RootServer_not_a_string world phone p t h Hp Ht).
      cbn. lia. }
    destruct text; try (apply N; intros s' H'; discriminate H').
    destruct (regex_8_digits_test (trim s)) eqn:Ht.
    + rewrite (RootServer_valid world phone p s h Hp Ht). cbn. lia.
    + rewrite (RootServer_help world phone p s h Hp Ht). cbn. lia.
  - assert (N : forall t, (forall s, t <> JStr s) ->
             List.length (deliveries (snd
               (WebhookServer.processIncomingMessage world phone t h))) <= 1
             /\ List.length (processing_requests (snd
               (WebhookServer.processIncomingMessage world phone t h))) <= 1).
    { intros t Ht. rewrite (WebhookServer_not_a_string world phone t h Ht).
      cbn. lia. }
    destruct text; try (apply N; intros s' H'; discriminate H').
    destruct (regex_8_digits_test (trim s)) eqn:Ht.
    + rewrite (WebhookServer_valid world phone s h Ht). cbn. lia.
    + rewrite (WebhookServer_help world phone s h Ht). cbn. lia.
Qed.


Lemma format_throws_with_summary a cs ov e :
  ToString cs = Throw e ->
  exists e', formatResponseMessage a cs ov = Throw e'.
Proof.
  intros H. unfold formatResponseMessage.
  destruct (ToString ov); [rewrite H|]; eauto.
Qed.

(** X6: a result whose summary cannot be converted to a string (an
    object that carries its own [toString] entry, say) does not crash
    the orchestration: the conversion throws inside the inner [try], and
    the sender gets the fallback message, as for a failed call. *)
Theorem X6_unrenderable_summary_gives_fallback
    world phone p text h response props summary e :
  ToString phone = Ok p ->
  regex_8_digits_test (trim text) = true ->
  processing_endpoint world h (trim text) = Resolved response ->
  data response = JObj props ->
  own_property (js "ui_output_8") props = Some summary ->
  truthy summary = true ->
  ToString summary = Throw e ->
  let a := trim text in
  RootServer.processIncomingMessage world phone (JStr text) h
  = (Ok tt, [ProcessingRequest a;
             DeliveryRequest phone (RootServer.acknowledgment a);
             DeliveryRequest phone (fallbackMessage a)])
  /\ WebhookServer.processIncomingMessage world phone (JStr text) h
     = (Ok tt, [ProcessingRequest a;
                DeliveryRequest phone (fallbackMessage a)]).
Proof.
  intros Hp Ht Hr Hd Hs Htr He a.
  assert (F : final_reply (Resolved response) a = fallbackMessage a).
  { cbn [final_reply]. unfold has_summary, and_get. rewrite Hd.
    cbn [truthy get]. rewrite Hs, Htr.
    destruct (own_property (js "overall_response") props) as [ov|].
    - destruct (format_throws_with_summary a summary
                  (or_else ov (JStr (js "A"))) e He) as [e' ->].
      reflexivity.
    - destruct (format_throws_with_summary a summary
                  (or_else JUndefined (JStr (js "A"))) e He) as [e' ->].
      reflexivity. }
  split.
  - rewrite (RootServer_valid world phone p text h Hp Ht).
    cbv zeta. rewrite Hr. fold a. rewrite F. reflexivity.
  - rewrite (WebhookServer_valid world phone text h Ht).
    cbv zeta. rewrite Hr. fold a. rewrite F. reflexivity.
Qed.

Lemma X6_witness :
  let phone := JStr (js "966500000000") in
  let text := js "12345678" in
  let summary := JObj [(js "toString", JStr (js "x"))] in
  let world := resolving (JObj [(js "ui_output_8", summary)]) in
  let a := trim text in
  RootServer.processIncomingMessage world phone (JStr text) []
  = (Ok tt, [ProcessingRequest a;
             DeliveryRequest phone (RootServer.acknowledgment a);
             DeliveryRequest phone (fallbackMessage a)])
  /\ WebhookServer.processIncomingMessage world phone (JStr text) []
     = (Ok tt, [ProcessingRequest a;
                DeliveryRequest phone (fallbackMessage a)]).
Proof.
  exact (X6_unrenderable_summary_gives_fallback
           (resolving (JObj [(js "ui_output_8",
                              JObj [(js "toString", JStr (js "x"))])]))
           (JStr (js "966500000000")) (js "966500000000")
           (js "12345678") []
           {| status := 200;
              data := JObj [(js "ui_output_8",
                             JObj [(js "toString", JStr (js "x"))])] |}
           [(js "ui_output_8", JObj [(js "toString", JStr (js "x"))])]
           (JObj [(js "toString", JStr (js "x"))]) TypeError
           eq_refl eq_refl eq_refl eq_refl eq_refl eq_refl eq_refl).
Defined.

Lemma orchestrator_stays_in_bounds world phone text h :
  Forall (orchestrator_event phone)
    (snd (RootServer.processIncomingMessage world phone text h))
  /\ Forall (orchestrator_event phone)
       (snd (WebhookServer.processIncomingMessage world phone text h)).
Proof.
  split.
  - destruct (ToString phone) as [p|e] eqn:Hp.
    2:{ rewrite (RootServer_unloggable world phone e text h Hp).
        constructor. }
    assert (N : forall t, (forall s, t <> JStr s) ->
             Forall (orchestrator_event phone)
               (snd (RootServer.processIncomingMessage world phone t h))).
    { intros t Ht. rewrite (RootServer_not_a_string world phone p t h Hp Ht).
      repeat constructor. }
    destruct text; try (apply N; intros s' H'; discriminate H').
    destruct (regex_8_digits_test (trim s)) eqn:Ht.
    + rewrite (RootServer_valid world phone p s h Hp Ht).
      repeat constructor. exact Ht.
    + rewrite (RootServer_help world phone p s h Hp Ht).
      repeat constructor.
  - assert (N : forall t, (forall s, t <> JStr s) ->
             Forall (orchestrator_event phone)
               (snd (WebhookServer.processIncomingMessage world phone t h))).
    { intros t Ht. rewrite (WebhookServer_not_a_string world phone t h Ht).
      repeat constructor. }
    destruct text; try (apply N; intros s' H'; discriminate H').
    destruct (regex_8_digits_test (trim s)) eqn:Ht.
    + rewrite (WebhookServer_valid world phone s h Ht).
      repeat constructor. exact Ht.
    + rewrite (WebhookServer_help world phone s h Ht).
      repeat constructor.
Qed.


(** X7: whatever it is called with, an orchestration only asks the
    processing endpoint about codes of exactly eight digits, only writes
    to the sender it was called for, and never touches the HTTP
    response.  Holds in both files. *)
Theorem X7_orchestrator_stays_in_bounds world phone text h :
  Forall (orchestrator_event phone)
    (snd (RootServer.processIncomingMessage world phone text h))
  /\ Forall (orchestrator_event phone)
       (snd (WebhookServer.processIncomingMessage world phone text h)).
Proof. exact (orchestrator_stays_in_bounds world phone text h). Qed.

(** *** Trace invariants through the ingress handler *)

Lemma emits_ret A P (a : A) : emits P (ret a).
Proof. intros h. constructor. Qed.

Lemma emits_lift A P (o : Outcome A) : emits P (lift o).
Proof. intros h. constructor. Qed.

Lemma emits_bind A B P (m : M A) (k : A -> M B) :
  emits P m -> (forall a, emits P (k a)) -> emits P (bind m k).
Proof.
  intros Hm Hk h. unfold bind. specialize (Hm h).
  destruct (m h) as [[a|e] t]; cbn [snd] in *; [|exact Hm].
  specialize (Hk a (h ++ t)). destruct (k a (h ++ t)) as [r t'].
  cbn [snd] in *. apply Forall_app. now split.
Qed.

Lemma emits_try A P (m : M A) (handler : Error -> M A) :
  emits P m -> (forall e, emits P (handler e)) ->
  emits P (try_catch m handler).
Proof.
  intros Hm Hk h. unfold try_catch. specialize (Hm h).
  destruct (m h) as [[a|e] t]; cbn [snd] in *; [exact Hm|].
  specialize (Hk e (h ++ t)). destruct (handler e (h ++ t)) as [r t'].
  cbn [snd] in *. apply Forall_app. now split.
Qed.

Lemma emits_forEach A P (l : list A) (body : A -> M unit) :
  (forall x, emits P (body x)) -> emits P (forEach l body).
Proof.
  intros Hb. induction l as [|x l IH]; cbn [forEach].
  - apply emits_ret.
  - apply emits_bind; auto.
Qed.

Lemma emits_for_of P v (body : JsValue -> M unit) :
  (forall x, emits P (body x)) -> emits P (for_of v body).
Proof.
  intros Hb. unfold for_of. apply emits_bind.
  - apply emits_lift.
  - intros l. now apply emits_forEach.
Qed.

Lemma emits_console_log P vs : emits P (console_log vs).
Proof.
  induction vs as [|v vs IH]; cbn [console_log].
  - apply emits_ret.
  - apply emits_bind; [apply emits_lift|auto].
Qed.

Lemma eight_digits_only_of_orchestrator phone t :
  Forall (orchestrator_event phone) t -> Forall eight_digits_only t.
Proof.
  apply Forall_impl. intros [s b|a|p m]; cbn; auto.
Qed.

Lemma handler_emits P orchestrate req :
  P (Respond 200 success_body) ->
  (forall phone text, emits P (orchestrate phone text)) ->
  emits P (Shared.handleIncomingWebhook orchestrate req).
Proof.
  intros HR Ho.
  unfold Shared.handleIncomingWebhook, handleIncomingWebhook_try,
    forEntry, forChange, forMessage. cbv zeta.
  apply emits_try; [|intros e; apply emits_ret].
  apply emits_bind; [intros h; repeat constructor; exact HR|].
  intros _. apply emits_bind; [apply emits_lift|]. intros entry.
  destruct (negb (truthy entry)); [apply emits_ret|].
  apply emits_for_of. intros e.
  apply emits_bind; [apply emits_lift|]. intros changes.
  apply emits_for_of. intros c.
  apply emits_bind; [apply emits_lift|]. intros v.
  apply emits_bind; [apply emits_lift|]. intros ms.
  apply emits_for_of. intros m.
  apply emits_bind; [apply emits_lift|]. intros from.
  apply emits_bind; [apply emits_lift|]. intros id.
  apply emits_bind; [apply emits_lift|]. intros ty.
  destruct (negb (strict_equals_string ty (js "text")));
    [apply emits_console_log|].
  apply emits_bind; [apply emits_lift|]. intros tx.
  apply emits_bind; [apply emits_lift|]. intros b.
  apply emits_bind; [apply emits_console_log|]. intros _.
  apply Ho.
Qed.

Lemma processing_requests_eight_digits t :
  Forall eight_digits_only t ->
  Forall (fun a => regex_8_digits_test a = true) (processing_requests t).
Proof.
  induction 1 as [|e t He _ IH]; [constructor|].
  destruct e; cbn; auto.
Qed.

(** X8: whatever is posted to the webhook, the processing endpoint is
    only ever asked about codes of exactly eight decimal digits: every
    processing request made while handling a notification carries a
    string that passes the eight-digit test.  Holds in both files. *)
Theorem X8_only_eight_digit_codes_are_forwarded world req h :
  Forall (fun a => regex_8_digits_test a = true)
    (processing_requests
       (snd (RootServer.handleIncomingWebhook world req h)))
  /\ Forall (fun a => regex_8_digits_test a = true)
       (processing_requests
          (snd (WebhookServer.handleIncomingWebhook world req h))).
Proof.
  split; apply processing_requests_eight_digits;
    apply handler_emits; try exact I; intros phone text h';
    apply (eight_digits_only_of_orchestrator phone).
  - apply (proj1 (orchestrator_stays_in_bounds world phone text h')).
  - apply (proj2 (orchestrator_stays_in_bounds world phone text h')).
Qed.

(* ===================================================================== *)
(** ** Further properties: the ingress handler *)
(* ===================================================================== *)

Lemma get_Ok_any v key x key' :
  get v key = Ok x -> exists y, get v key' = Ok y.
Proof.
  destruct v; cbn; try discriminate; intros _; eauto.
  destruct (own_property key' properties); eauto.
Qed.

Lemma forMessage_skips orchestrate message h :
  not_a_text_message message ->
  forMessage orchestrate message h = (Ok tt, []).
Proof.
  intros (ty & s & Hty & Hne & Hs).
  destruct (get_Ok_any message _ ty (js "from") Hty) as [f Hf].
  destruct (get_Ok_any message _ ty (js "id") Hty) as [i Hi].
  unfold forMessage. run. rewrite Hf, Hi, Hty. cbv beta iota.
  rewrite Hne. cbn [negb]. rewrite (console_log_Ok ty s _ Hs).
  reflexivity.
Qed.

(** X9: messages that are not text messages -- images, audio,
    reactions, anything whose [type] is not the string "text" -- are
    skipped: a notification that carries only such messages gets the 200
    answer and nothing else, whatever the orchestrator is. *)
Theorem X9_other_message_types_are_skipped orchestrate messages h :
  Forall not_a_text_message messages ->
  Shared.handleIncomingWebhook orchestrate (post (notification messages)) h
  = (Ok tt, [Respond 200 success_body]).
Proof.
  intros Hall. apply handleIncomingWebhook_notification.
  apply (forEach_nothing _ not_a_text_message); [|exact Hall].
  intros m h' Hm. now apply forMessage_skips.
Qed.

Lemma X9_witness :
  Shared.handleIncomingWebhook (RootServer.processIncomingMessage rejecting)
    (post (notification [image_message (js "966500000000");
                         JObj [(js "from", JStr (js "966500000000"))]]))
    []
  = (Ok tt, [Respond 200 success_body]).
Proof.
  apply X9_other_message_types_are_skipped.
  apply Forall_cons; [|apply Forall_cons; [|apply Forall_nil]].
  - exists (JStr (js "image")), (js "image").
    repeat split; vm_compute; reflexivity.
  - exists JUndefined, (js "undefined").
    repeat split; vm_compute; reflexivity.
Defined.

(** *** A message that cannot be read *)





(** X11: a text message without a usable body -- no [text] property, a
    [text] without [body], an empty body -- is orchestrated with the
    empty string and therefore answered with the help template.  Holds
    in both files. *)
Theorem X11_text_message_without_body_gets_help
    world message phone p text_value body_value h :
  get message (js "from") = Ok phone ->
  ToString phone = Ok p ->
  get message (js "type") = Ok (JStr (js "text")) ->
  get message (js "text") = Ok text_value ->
  get_optional text_value (js "body") = Ok body_value ->
  truthy body_value = false ->
  forMessage (RootServer.processIncomingMessage world) message h
  = (Ok tt, [DeliveryRequest phone helpMessage])
  /\ forMessage (WebhookServer.processIncomingMessage world) message h
     = (Ok tt, [DeliveryRequest phone helpMessage]).
Proof.
  intros Hf Hp Hty Htx Hb Hfalsy.
  destruct (get_Ok_any message _ phone (js "id") Hf) as [i Hi].
  assert (E : strict_equals_string (JStr (js "text")) (js "text") = true)
    by (vm_compute; reflexivity).
  assert (O : or_else body_value (JStr []) = JStr [])
    by (unfold or_else; now rewrite Hfalsy).
  assert (T : regex_8_digits_test (trim []) = false) by reflexivity.
  split; unfold forMessage; run; rewrite Hf, Hi, Hty; cbv beta iota;
    rewrite E; cbn [negb]; rewrite Htx; cbv beta iota; rewrite Hb;
    cbv beta iota; rewrite O; unfold console_log; run; rewrite Hp;
    cbn [ToString]; cbv beta iota.
  - rewrite (RootServer_help world phone p [] _ Hp T). reflexivity.
  - rewrite (WebhookServer_help world phone [] _ T). reflexivity.
Qed.

Lemma X11_witness :
  let message := JObj [(js "from", JStr (js "966500000000"));
                       (js "type", JStr (js "text"))] in
  let phone := JStr (js "966500000000") in
  forMessage (RootServer.processIncomingMessage rejecting) message []
  = (Ok tt, [DeliveryRequest phone helpMessage])
  /\ forMessage (WebhookServer.processIncomingMessage rejecting) message []
     = (Ok tt, [DeliveryRequest phone helpMessage]).
Proof.
  exact (X11_text_message_without_body_gets_help rejecting
           (JObj [(js "from", JStr (js "966500000000"));
                  (js "type", JStr (js "text"))])
           (JStr (js "966500000000")) (js "966500000000")
           JUndefined JUndefined []
           eq_refl eq_refl eq_refl eq_refl eq_refl eq_refl).
Defined.

(* ===================================================================== *)
(** ** Further properties: trimming, the token, the table *)
(* ===================================================================== *)

Lemma is_digit_not_white_space c :
  is_digit c = true -> is_white_space c = false.
Proof.
  unfold is_digit. intros H. apply andb_true_iff in H as [H1 H2].
  apply N.leb_le in H1, H2.
  destruct (is_white_space c) eqn:W; [exfalso|reflexivity].
  unfold is_white_space in W. apply orb_true_iff in W as [W|W].
  - apply existsb_exists in W as (x & Hx & Hc). apply N.eqb_eq in Hc.
    subst x. cbn [In] in Hx.
    repeat (destruct Hx as [Hx|Hx]; [subst c; lia|]). exact Hx.
  - apply andb_true_iff in W as [W _]. apply N.leb_le in W. lia.
Qed.

Lemma trimStart_white pre l :
  forallb is_white_space pre = true -> trimStart (pre ++ l) = trimStart l.
Proof.
  induction pre as [|c pre IH]; [reflexivity|].
  cbn [forallb app trimStart]. intros H.
  apply andb_true_iff in H as [Hc Hp]. rewrite Hc. auto.
Qed.

Lemma trimStart_digits code l :
  code <> [] -> forallb is_digit code = true ->
  trimStart (code ++ l) = code ++ l.
Proof.
  destruct code as [|c code]; [congruence|]. intros _ H.
  cbn [forallb] in H. apply andb_true_iff in H as [Hc _].
  cbn [app trimStart]. now rewrite (is_digit_not_white_space c Hc).
Qed.

Lemma forallb_rev A (f : A -> bool) l :
  forallb f l = true -> forallb f (rev l) = true.
Proof.
  rewrite !forallb_forall. intros H x Hx. apply H. now apply in_rev.
Qed.

(** White space around a code is removed and nothing else is. *)
Lemma trim_code pre code post :
  forallb is_white_space pre = true ->
  forallb is_white_space post = true ->
  regex_8_digits_test code = true ->
  trim (pre ++ code ++ post) = code.
Proof.
  intros Hpre Hpost Hcode. unfold regex_8_digits_test in Hcode.
  apply andb_true_iff in Hcode as [Hlen Hdig]. apply Nat.eqb_eq in Hlen.
  assert (Hne : code <> []) by (intros ->; discriminate Hlen).
  unfold trim, trimEnd.
  rewrite (trimStart_white pre _ Hpre), (trimStart_digits code post Hne Hdig).
  rewrite rev_app_distr, (trimStart_white (rev post) _ (forallb_rev _ _ _ Hpost)).
  rewrite <- (app_nil_r (rev code)), trimStart_digits, app_nil_r.
  - apply rev_involutive.
  - intros E. apply Hne. rewrite <- (rev_involutive code), E. reflexivity.
  - now apply forallb_rev.
Qed.

(** X12: white space and line breaks around the code are ignored, and
    the code is forwarded bare: for a text made of white space, eight
    digits and white space again, the one processing request carries
    exactly the eight digits.  Holds in both files. *)
Theorem X12_code_is_forwarded_without_surrounding_space
    world phone p pre code post h :
  ToString phone = Ok p ->
  forallb is_white_space pre = true ->
  forallb is_white_space post = true ->
  regex_8_digits_test code = true ->
  let text := JStr (pre ++ code ++ post) in
  processing_requests
    (snd (RootServer.processIncomingMessage world phone text h)) = [code]
  /\ processing_requests
       (snd (WebhookServer.processIncomingMessage world phone text h))
     = [code].
Proof.
  intros Hp Hpre Hpost Hcode text.
  pose proof (trim_code pre code post Hpre Hpost Hcode) as T.
  assert (Ht : regex_8_digits_test (trim (pre ++ code ++ post)) = true)
    by now rewrite T.
  split; subst text.
  - rewrite (RootServer_valid world phone p _ h Hp Ht). cbv zeta.
    rewrite T. reflexivity.
  - rewrite (WebhookServer_valid world phone _ h Ht). cbv zeta.
    rewrite T. reflexivity.
Qed.

Lemma X12_witness :
  let phone := JStr (js "966500000000") in
  let text := JStr ([32; 9]%N ++ js "88825481" ++ [13; 10]%N) in
  processing_requests
    (snd (RootServer.processIncomingMessage rejecting phone text []))
  = [js "88825481"]
  /\ processing_requests
       (snd (WebhookServer.processIncomingMessage rejecting phone text []))
     = [js "88825481"].
Proof.
  exact (X12_code_is_forwarded_without_surrounding_space rejecting
           (JStr (js "966500000000")) (js "966500000000")
           [32; 9]%N (js "88825481") [13; 10]%N []
           eq_refl eq_refl eq_refl eq_refl).
Defined.

(** *** The configured token *)

Lemma env_or_nonempty x fallback : fallback <> [] -> env_or x fallback <> [].
Proof. destruct x as [[|c s]|]; cbn; auto; discriminate. Qed.

Lemma VERIFY_TOKEN_nonempty env :
  RootServer.VERIFY_TOKEN env <> [] /\ WebhookServer.VERIFY_TOKEN env <> [].
Proof.
  assert (D : js "wa_api_2026" <> []) by (vm_compute; discriminate).
  split.
  - unfold RootServer.VERIFY_TOKEN. now apply env_or_nonempty, env_or_nonempty.
  - unfold WebhookServer.VERIFY_TOKEN. now apply env_or_nonempty.
Qed.

Lemma handleVerification_rejects tok req h :
  tok <> [] ->
  (forall s, query_param req (js "hub.verify_token") = JStr s -> s = []) ->
  handleVerification tok req h
  = (Ok tt, [Respond 403 (JStr (js "Verification failed"))]).
Proof.
  intros Hne Hq. unfold handleVerification.
  destruct (strict_equals_string
              (query_param req (js "hub.verify_token")) tok) eqn:E.
  - apply strict_equals_string_iff in E. apply Hq in E. congruence.
  - rewrite andb_false_r. reflexivity.
Qed.

(** X13: the configured token is never the empty string (an environment
    variable that is unset or empty falls through to the next source and
    finally to the built-in default), so a verification request without
    a token, with an empty token or with a token that is not a string is
    answered 403 under every environment.  Holds in both files. *)
Theorem X13_missing_or_empty_token_is_rejected env req h :
  (forall s, query_param req (js "hub.verify_token") = JStr s -> s = []) ->
  handleVerification (RootServer.VERIFY_TOKEN env) req h
  = (Ok tt, [Respond 403 (JStr (js "Verification failed"))])
  /\ handleVerification (WebhookServer.VERIFY_TOKEN env) req h
     = (Ok tt, [Respond 403 (JStr (js "Verification failed"))]).
Proof.
  intros Hq. destruct (VERIFY_TOKEN_nonempty env) as [R W].
  split; now apply handleVerification_rejects.
Qed.

Lemma X13_witness :
  let env := {| env_PORT := None; env_VERIFY_TOKEN := Some [];
                env_WHATSAPP_VERIFY_TOKEN := Some [];
                env_PROCESSING_API_URL := None |} in
  let req := verification_query (JStr (js "subscribe")) (JStr [])
               (JStr (js "1158201444")) in
  handleVerification (RootServer.VERIFY_TOKEN env) req []
  = (Ok tt, [Respond 403 (JStr (js "Verification failed"))])
  /\ handleVerification (WebhookServer.VERIFY_TOKEN env) req []
     = (Ok tt, [Respond 403 (JStr (js "Verification failed"))]).
Proof.
  refine (X13_missing_or_empty_token_is_rejected
            {| env_PORT := None; env_VERIFY_TOKEN := Some [];
               env_WHATSAPP_VERIFY_TOKEN := Some [];
               env_PROCESSING_API_URL := None |}
            (verification_query (JStr (js "subscribe")) (JStr [])
               (JStr (js "1158201444"))) [] _).
  intros s H.
  rewrite (proj1 (proj2 (verification_query_params
                           (JStr (js "subscribe")) (JStr [])
                           (JStr (js "1158201444"))))) in H.
  now injection H as <-.
Defined.

(** *** The glyph table *)

Lemma lookup_None key table :
  ~ In key (map fst table) -> lookup key table = None.
Proof.
  induction table as [|[k v] table IH]; [reflexivity|].
  cbn [map fst In lookup]. intros H.
  destruct (str_eqb k key) eqn:E.
  - apply str_eqb_eq in E. tauto.
  - apply IH. tauto.
Qed.

(** X14: for a status string that is neither a key of the table (A, D,
    F, P -- upper case only) nor the name of a property every object
    inherits, and a summary string, the formatter does not throw and
    returns the template with the clipboard glyph, the status as given
    and the summary as given. *)
Theorem X14_unlisted_status_gets_clipboard a summary st :
  ~ In st (map fst statusEmoji) ->
  ~ In st (map fst Object_prototype) ->
  formatResponseMessage a (JStr summary) (JStr st)
  = Ok (result_template (js "📋") a st summary).
Proof.
  intros H1 H2. unfold formatResponseMessage. cbn [ToString].
  unfold emoji_of. now rewrite (lookup_None _ _ H1), (lookup_None _ _ H2).
Qed.

Lemma X14_witness :
  formatResponseMessage (js "88825481") (JStr (js "ok")) (JStr (js "a"))
  = Ok (result_template (js "📋") (js "88825481") (js "a") (js "ok")).
Proof.
  apply X14_unlisted_status_gets_clipboard.
  - vm_compute. intros H.
    repeat (destruct H as [H|H]; [discriminate H|]). exact H.
  - vm_compute. intros H.
    repeat (destruct H as [H|H]; [discriminate H|]). exact H.
Defined.

(* ===================================================================== *)
(** ** Further properties: payloads that fail, payloads that nest *)
(* ===================================================================== *)

(** X15: when the extraction itself fails -- the request has no body to
    read [entry] from, or [entry] is a value that cannot be iterated
    (an object, a number, [true]) -- the [try] block throws after the
    200 answer, the handler catches the error, and nothing but the 200
    answer has happened, whatever the orchestrator is. *)
Theorem X15_failed_extraction_is_caught orchestrate req h :
  unreadable_payload (body req) ->
  handleIncomingWebhook_try orchestrate req h
  = (Throw TypeError, [Respond 200 success_body])
  /\ Shared.handleIncomingWebhook orchestrate req h
     = (Ok tt, [Respond 200 success_body]).
Proof.
  intros Hu.
  assert (E : handleIncomingWebhook_try orchestrate req h
              = (Throw TypeError, [Respond 200 success_body])).
  { unfold handleIncomingWebhook_try. cbv zeta.
    destruct Hu as [payload Hg | payload entry Hg Ht Hi]; run;
      rewrite Hg; cbv beta iota.
    - reflexivity.
    - rewrite Ht. cbn [negb]. unfold for_of. run. rewrite Hi.
      reflexivity. }
  split; [exact E|].
  unfold Shared.handleIncomingWebhook, try_catch. rewrite E.
  reflexivity.
Qed.

Lemma X15_witness :
  let req := post (JObj [(js "object", JStr (js "page"));
                         (js "entry", JObj [(js "id", JStr (js "0"))])]) in
  handleIncomingWebhook_try (RootServer.processIncomingMessage rejecting)
    req []
  = (Throw TypeError, [Respond 200 success_body])
  /\ Shared.handleIncomingWebhook
       (RootServer.processIncomingMessage rejecting) req []
     = (Ok tt, [Respond 200 success_body]).
Proof.
  apply X15_failed_extraction_is_caught.
  apply entry_not_iterable with (entry := JObj [(js "id", JStr (js "0"))]);
    reflexivity.
Defined.

(** *** Several entries and changes *)











(* ===================================================================== *)
(** ** Further properties: the two files side by side *)
(* ===================================================================== *)


